(** * task8/app.js: the Bitcoin table refresher

    A shallow embedding of [src/task8/app.js] and the properties of its
    cache, fallback, snapshot and single-flight logic.

    JavaScript numbers are IEEE 754 binary64 values, so they are modelled
    by Rocq's primitive floats, whose operations are the same ones.
    Host facilities that the script only calls (the network, the clock,
    [localStorage], [JSON], number formatting) are modelled by what the
    script can observe of them. Three things are taken for granted: the
    page has the two elements the script writes to, [localStorage] can
    be read and written, and the calls of one cycle have settled before
    the next cycle starts. *)

From Stdlib Require Import Bool List String ZArith Floats Lia.
Import ListNotations.

Local Open Scope string_scope.
Local Open Scope list_scope.

(** ** JavaScript values *)

(** The values the script handles: what [JSON.parse] and [response.json()]
    return, plus [undefined], which reading a missing property gives. *)
#[warnings="-register-all"]
Inductive value : Type :=
| VUndefined
| VNull
| VBool (b : bool)
| VNum (x : float)
| VStr (s : string)
| VArr (items : list value)
| VObj (fields : list (string * value)).

(** Exceptions, by what raises them. *)
Inductive error : Type :=
| SyntaxError          (* JSON.parse or response.json() on text that is not JSON *)
| TypeError            (* property read on undefined or null, failed conversion *)
| NetworkError         (* fetch rejected *)
| BadGateway           (* line 66: new Error('... 502 (Bad Gateway)') *)
| BitcoinUnavailable.  (* line 91: new Error('Не удалось получить данные о Bitcoin.') *)

Inductive result (A : Type) : Type :=
| Ok (a : A)
| Err (e : error).
Arguments Ok {A} a.
Arguments Err {A} e.

Definition bind {A B : Type} (r : result A) (k : A -> result B) : result B :=
  match r with
  | Ok a => k a
  | Err e => Err e
  end.

Notation "x <- r ;; k" := (bind r (fun x => k))
  (at level 61, r at next level, right associativity).

Definition succeeds {A : Type} (r : result A) : bool :=
  match r with Ok _ => true | Err _ => false end.

Fixpoint lookup (k : string) (fields : list (string * value)) : value :=
  match fields with
  | [] => VUndefined
  | (k', v) :: rest => if String.eqb k k' then v else lookup k rest
  end.

(** [o.k] for the property names this script reads ([rate], [timestamp],
    [Valute], [USD], [Value], [last], [total_fees], [market_price_usd],
    [trade_volume_btc]): none of them is defined on a built-in prototype,
    so only an object's own fields answer, primitives and arrays give
    [undefined], and [undefined] and [null] throw. *)
Definition get (o : value) (k : string) : result value :=
  match o with
  | VUndefined | VNull => Err TypeError
  | VObj fields => Ok (lookup k fields)
  | VBool _ | VNum _ | VStr _ | VArr _ => Ok VUndefined
  end.

(** [typeof v === 'number'] *)
Definition is_number (v : value) : bool :=
  match v with VNum _ => true | _ => false end.

(** ** The host: JSON text, the network, the clock, the console *)

(** A string kept in [localStorage] under [CACHE_KEY], by what the
    script can do with it: test it for emptiness and hand it to
    [JSON.parse]. [JSONText v] is a text that [JSON.parse] reads as [v]. *)
Inductive item : Type :=
| EmptyString
| NotJSON
| JSONText (v : value).

Definition JSON_parse (text : item) : result value :=
  match text with
  | JSONText v => Ok v
  | EmptyString | NotJSON => Err SyntaxError
  end.

(** What [JSON.parse] reads back from [JSON.stringify v]: a number that
    is not finite is written as [null], [-0] as [0], a field holding
    [undefined] is left out, and [undefined] in an array becomes [null]. *)
Fixpoint reread (v : value) : value :=
  match v with
  | VUndefined => VNull
  | VNull => VNull
  | VBool b => VBool b
  | VNum x =>
      if is_finite x then (if is_zero x then VNum 0 else VNum x) else VNull
  | VStr s => VStr s
  | VArr items => VArr (map reread items)
  | VObj fields =>
      VObj ((fix kept (fs : list (string * value)) : list (string * value) :=
               match fs with
               | [] => []
               | (_, VUndefined) :: rest => kept rest
               | (k, x) :: rest => (k, reread x) :: kept rest
               end) fields)
  end.

Definition JSON_stringify (v : value) : item := JSONText (reread v).

(** Lines 2-4. *)
Inductive url : Type :=
| BITCOIN_USD_URL
| FALLBACK_BITCOIN_USD_URL
| USD_RUB_URL.

(** The body of a response, by what [response.json()] does with it. *)
Inductive body : Type :=
| NotJson
| Json (data : value).

(** What [fetch(u)] settles to: a rejection, or a response of any status. *)
Inductive reply : Type :=
| Rejected
| Response (status : Z) (b : body).

(** Everything outside the script during one call: the clock read on
    line 19, the answers of the three endpoints, and the clock read when
    the table is drawn (lines 186 and 191). *)
Record world : Type := {
  now : float;
  net : url -> reply;
  drawn_at : float
}.

Definition response_json (b : body) : result value :=
  match b with
  | Json data => Ok data
  | NotJson => Err SyntaxError
  end.

(** Console messages, by the line that prints them. *)
Inductive message : Type :=
| UsingCachedRate      (* 25 *)
| RateUpdated          (* 42 *)
| RateFetchFailed      (* 46 *)
| UsingStaleRate       (* 49 *)
| PrimaryAnswered      (* 69 *)
| PrimaryDown          (* 77 *)
| FallbackAnswered     (* 83 *)
| FallbackFailed       (* 90 *)
| CycleSkipped         (* 130 *)
| CycleFailed.         (* 189 *)

(** What a call does to the outside, in order. *)
Inductive event : Type :=
| Fetch (u : url)           (* fetch(u) is issued *)
| ReadJson (u : url)        (* response.json() is called on u's response *)
| SetItem (text : item)     (* localStorage.setItem(CACHE_KEY, text) *)
| Log (m : message).

Definition is_fetch (e : event) : bool :=
  match e with Fetch _ => true | _ => false end.

Definition fetches (t : list event) : list event := filter is_fetch t.

(** Line 8. *)
Definition CACHE_DURATION : float := (60 * 60 * 1000)%float.

(** ** getBitcoinData (lines 61-94) *)

Record PricePoint : Type := {
  priceUsd : value;
  volumeBtc : value
}.

(** Lines 64-75, the [try] block: the primary endpoint, shape A. Line 69
    logs before the two fields are read. *)
Definition primary (w : world) : result PricePoint * list event :=
  match net w BITCOIN_USD_URL with
  | Rejected => (Err NetworkError, [Fetch BITCOIN_USD_URL])
  | Response status b =>
      if (status =? 502)%Z
      then (Err BadGateway, [Fetch BITCOIN_USD_URL])
      else
        match response_json b with
        | Err e => (Err e, [Fetch BITCOIN_USD_URL; ReadJson BITCOIN_USD_URL])
        | Ok data =>
            (last <- get data "last" ;;
             total_fees <- get data "total_fees" ;;
             Ok {| priceUsd := last; volumeBtc := total_fees |},
             [Fetch BITCOIN_USD_URL; ReadJson BITCOIN_USD_URL;
              Log PrimaryAnswered])
        end
  end.

(** Lines 81-88, the inner [try] block: the fallback endpoint, shape B.
    The status of this response is not looked at. *)
Definition secondary (w : world) : result PricePoint * list event :=
  match net w FALLBACK_BITCOIN_USD_URL with
  | Rejected => (Err NetworkError, [Fetch FALLBACK_BITCOIN_USD_URL])
  | Response _ b =>
      match response_json b with
      | Err e =>
          (Err e, [Fetch FALLBACK_BITCOIN_USD_URL;
                   ReadJson FALLBACK_BITCOIN_USD_URL])
      | Ok data =>
          (market_price_usd <- get data "market_price_usd" ;;
           trade_volume_btc <- get data "trade_volume_btc" ;;
           Ok {| priceUsd := market_price_usd; volumeBtc := trade_volume_btc |},
           [Fetch FALLBACK_BITCOIN_USD_URL; ReadJson FALLBACK_BITCOIN_USD_URL;
            Log FallbackAnswered])
      end
  end.

(** Lines 76-93: whatever the primary threw is replaced by the fallback's
    answer, and whatever the fallback threw by the error of line 91. *)
Definition getBitcoinData (w : world) : result PricePoint * list event :=
  match primary w with
  | (Ok point, t1) => (Ok point, t1)
  | (Err _, t1) =>
      match secondary w with
      | (Ok point, t2) => (Ok point, t1 ++ [Log PrimaryDown] ++ t2)
      | (Err _, t2) =>
          (Err BitcoinUnavailable,
           t1 ++ [Log PrimaryDown] ++ t2 ++ [Log FallbackFailed])
      end
  end.

(** ** formatRub and formatBtc (lines 101-122) *)

(** The string [x.toLocaleString('ru-RU', {minimumFractionDigits,
    maximumFractionDigits})], kept as the call that produces it: the
    same call gives the same string. *)
Record localized : Type := toLocaleString {
  shown : float;
  minimumFractionDigits : nat;
  maximumFractionDigits : nat
}.

Definition formatRub (v : value) : localized :=
  let numberValue :=
    match v with
    | VNum x => if negb (is_nan x) then x else 0%float
    | _ => 0%float
    end in
  toLocaleString numberValue 2 2.

Definition formatBtc (v : value) : localized :=
  let numberValue :=
    match v with
    | VNum x => if negb (is_nan x) then x else 0%float
    | _ => 0%float
    end in
  toLocaleString numberValue 4 8.

(** ** Arithmetic, getUsdRubRate and updateCryptoTable *)

Inductive change_class : Type := positive | negative | zero.

(** The figures of lines 151-166. *)
Record Snapshot : Type := {
  marketPriceRub : float;
  totalRubValue : float;
  changeRubValue : float;
  changeClass : change_class
}.

(** What a call of getUsdRubRate leaves behind: the settlement of its
    promise, the content of the cache key, and its effects in order. *)
Record rate_call : Type := {
  returned : result value;
  stored : option item;
  effects : list event
}.

(** The table body, by the template that filled it. *)
Inductive markup : Type :=
| Untouched
| LoadingRow                                       (* 139 *)
| DataRow (price volume total : localized)
          (cls : change_class) (plus : bool) (delta : localized)  (* 175-184 *)
| ErrorRow (e : error).                            (* 190 *)

(** The text under the table. *)
Inductive caption : Type :=
| NoCaption
| LastUpdate (at_time : float)                     (* 186 *)
| UpdateError (at_time : float).                   (* 191 *)

(** The two globals of lines 10-11, the content of the cache key, and
    the two page elements the script writes to. *)
Record state : Type := {
  previousTotalRubValue : option float;
  isFetching : bool;
  localStorage : option item;
  tbody : markup;
  last_update : caption
}.

(** The page between two turns of the event loop: its state, and the
    world that the cycle in flight, if any, is waiting on. *)
Record page : Type := {
  memory : state;
  awaiting : option world
}.

(** A turn of the event loop: the timer (or the load event) calls
    updateCryptoTable, or the fetches of the cycle in flight settle. *)
Inductive turn : Type :=
| Invoke (w : world)
| Settle.

Section Script.

(** ToNumber of a string, an array or an object (ECMA-262 StringToNumber
    and OrdinaryToPrimitive): decided by the engine, which may answer
    with a number or throw. *)
Variable host_ToNumber : value -> result float.

(** ToNumber, as the operators [*], [-] and [<] apply it to an operand. *)
Definition ToNumber (v : value) : result float :=
  match v with
  | VUndefined => Ok nan
  | VNull => Ok 0%float
  | VBool b => Ok (if b then 1%float else 0%float)
  | VNum x => Ok x
  | VStr _ | VArr _ | VObj _ => host_ToNumber v
  end.

(** [a * b] and [a - b]: the left operand is converted first. *)
Definition js_mul (a b : value) : result float :=
  x <- ToNumber a ;; y <- ToNumber b ;; Ok (x * y)%float.

Definition js_sub (a b : value) : result float :=
  x <- ToNumber a ;; y <- ToNumber b ;; Ok (x - y)%float.

(** *** getUsdRubRate (lines 17-55) *)

(** Lines 22-28: [Some rate] when the cache answers, [None] when the
    function goes on to the network. [null] and the empty string are
    falsy. None of this is inside a [try]. *)
Definition cache_check (now : float) (cachedData : option item)
  : result (option value) :=
  match cachedData with
  | None | Some EmptyString => Ok None
  | Some text =>
      parsed <- JSON_parse text ;;
      rate <- get parsed "rate" ;;
      timestamp <- get parsed "timestamp" ;;
      age <- js_sub (VNum now) timestamp ;;
      if (age <? CACHE_DURATION)%float then Ok (Some rate) else Ok None
  end.

(** Lines 32-34: the rate as the endpoint gives it. The status of the
    response is not looked at. *)
Definition fetch_rate (w : world) : result value * list event :=
  match net w USD_RUB_URL with
  | Rejected => (Err NetworkError, [Fetch USD_RUB_URL])
  | Response _ b =>
      (data <- response_json b ;;
       Valute <- get data "Valute" ;;
       USD <- get Valute "USD" ;;
       get USD "Value",
       [Fetch USD_RUB_URL; ReadJson USD_RUB_URL])
  end.

(** Lines 46-53, the [catch] block. *)
Definition rate_on_error (cachedData : option item) : result value * list event :=
  match cachedData with
  | None | Some EmptyString => (Ok (VNum 90), [Log RateFetchFailed])
  | Some text =>
      (parsed <- JSON_parse text ;; get parsed "rate",
       [Log RateFetchFailed; Log UsingStaleRate])
  end.

Definition getUsdRubRate (w : world) (cachedData : option item) : rate_call :=
  match cache_check (now w) cachedData with
  | Err e =>
      {| returned := Err e; stored := cachedData; effects := [] |}
  | Ok (Some rate) =>
      {| returned := Ok rate; stored := cachedData;
         effects := [Log UsingCachedRate] |}
  | Ok None =>
      match fetch_rate w with
      | (Ok usdRate, t) =>
          let newCache :=
            VObj [("rate", usdRate); ("timestamp", VNum (now w))] in
          {| returned := Ok usdRate;
             stored := Some (JSON_stringify newCache);
             effects := t ++ [SetItem (JSON_stringify newCache); Log RateUpdated] |}
      | (Err _, t) =>
          let (answer, t') := rate_on_error cachedData in
          {| returned := answer; stored := cachedData; effects := t ++ t' |}
      end
  end.

(** *** updateCryptoTable (lines 128-195) *)

(** Lines 155-166. [previousTotalRubValue] is [null] ([None]) or the
    total of an earlier cycle. *)
Definition change (totalRubValue : float) (previous : option float)
  : float * change_class :=
  match previous with
  | None => (0%float, zero)
  | Some prev =>
      let changeRubValue := (totalRubValue - prev)%float in
      (changeRubValue,
       if (0 <? changeRubValue)%float then positive
       else if (changeRubValue <? 0)%float then negative
       else zero)
  end.

(** Lines 151-166, on the operands as they arrive from the two fetches. *)
Definition snapshot (priceUsd volumeBtc usdRubRate : value)
    (previous : option float) : result Snapshot :=
  marketPriceRub <- js_mul priceUsd usdRubRate ;;
  totalRubValue <- js_mul (VNum marketPriceRub) volumeBtc ;;
  let (changeRubValue, changeClass) := change totalRubValue previous in
  Ok {| marketPriceRub := marketPriceRub;
        totalRubValue := totalRubValue;
        changeRubValue := changeRubValue;
        changeClass := changeClass |}.

(** Lines 134-139: what runs before the first [await]. *)
Definition enter (s : state) : state :=
  {| previousTotalRubValue := previousTotalRubValue s;
     isFetching := true;
     localStorage := localStorage s;
     tbody := LoadingRow;
     last_update := last_update s |}.

(** Line 143. Both calls are made; the promise of getUsdRubRate can only
    be rejected before its first [await] (lines 23-24), so when both are
    rejected its reason is the one [Promise.all] reports. *)
Definition Promise_all (usdRubRate : result value) (btcData : result PricePoint)
  : result (value * PricePoint) :=
  r <- usdRubRate ;; b <- btcData ;; Ok (r, b).

(** Lines 141-194: the [try], [catch] and [finally] blocks. The events
    of the two calls are listed one call after the other; the script
    does not order them. *)
Definition settle (w : world) (s : state) : state * list event :=
  let rate := getUsdRubRate w (localStorage s) in
  let (btcData, t_btc) := getBitcoinData w in
  let t := effects rate ++ t_btc in
  let computed :=
    pair <- Promise_all (returned rate) btcData ;;
    let (usdRubRate, point) := pair in
    snap <- snapshot (priceUsd point) (volumeBtc point) usdRubRate
              (previousTotalRubValue s) ;;
    Ok (snap, volumeBtc point) in
  match computed with
  | Ok (snap, volume) =>
      ({| previousTotalRubValue := Some (totalRubValue snap);
          isFetching := false;
          localStorage := stored rate;
          tbody := DataRow (formatRub (VNum (marketPriceRub snap)))
                           (formatBtc volume)
                           (formatRub (VNum (totalRubValue snap)))
                           (changeClass snap)
                           (0 <? changeRubValue snap)%float
                           (formatRub (VNum (changeRubValue snap)));
          last_update := LastUpdate (drawn_at w) |}, t)
  | Err e =>
      ({| previousTotalRubValue := previousTotalRubValue s;
          isFetching := false;
          localStorage := stored rate;
          tbody := ErrorRow e;
          last_update := UpdateError (drawn_at w) |}, t ++ [Log CycleFailed])
  end.

(** A call that nothing interrupts. *)
Definition updateCryptoTable (w : world) (s : state) : state * list event :=
  if isFetching s then (s, [Log CycleSkipped])
  else settle w (enter s).

(** *** Lines 198-204: calls arriving while a cycle awaits its fetches *)

(** One turn. The effects of a cycle are listed when it settles. *)
Definition react (p : page) (i : turn) : page * list event :=
  match i with
  | Invoke w =>
      if isFetching (memory p) then (p, [Log CycleSkipped])
      else ({| memory := enter (memory p); awaiting := Some w |}, [])
  | Settle =>
      match awaiting p with
      | Some w =>
          let (s, t) := settle w (memory p) in
          ({| memory := s; awaiting := None |}, t)
      | None => (p, [])
      end
  end.

Fixpoint run (p : page) (turns : list turn) : page * list event :=
  match turns with
  | [] => (p, [])
  | i :: rest =>
      let (p1, t1) := react p i in
      let (p2, t2) := run p1 rest in
      (p2, t1 ++ t2)
  end.

End Script.

(** ** The vocabulary of the specification *)

(** The SnapshotComputer of the specification, from its own words. *)
Module SnapshotComputer.

Definition marketPriceLocal (priceUsd rate : float) : float :=
  (priceUsd * rate)%float.

Definition totalValueLocal (priceUsd rate volumeUnits : float) : float :=
  (marketPriceLocal priceUsd rate * volumeUnits)%float.

Definition changeLocal (total : float) (previousTotal : option float) : float :=
  match previousTotal with
  | None => 0%float
  | Some prev => (total - prev)%float
  end.

Definition changeSign (changeLocal : float) : change_class :=
  if (0 <? changeLocal)%float then positive
  else if (changeLocal <? 0)%float then negative
  else zero.

End SnapshotComputer.

(** The CachedRate of the data model, and the text that lines 37-41
    write for it. *)
Record CachedRate : Type := {
  rate : float;
  timestamp : float
}.

Definition cache_entry (c : CachedRate) : item :=
  JSONText (VObj [("rate", VNum (rate c)); ("timestamp", VNum (timestamp c))]).

(** The invariant of the data model, on the text under the cache key:
    it is a CachedRate whose rate is a positive finite number and whose
    timestamp is not after [now]. *)
Definition CachedRate_invariant (now : float) (text : item) : Prop :=
  exists c : CachedRate,
    text = cache_entry c
    /\ (0 <? rate c)%float = true
    /\ is_finite (rate c) = true
    /\ (timestamp c <=? now)%float = true.

(** A cache that is not answering: the key is missing or empty
    ([None]), or it holds an entry that was read without error and is
    one hour old or older ([Some] of its rate). *)
Inductive unanswering (host : value -> result float) (now : float)
  : option item -> option value -> Prop :=
| cache_missing : unanswering host now None None
| cache_empty : unanswering host now (Some EmptyString) None
| cache_expired (v rate timestamp : value) (t : float) :
    get v "rate" = Ok rate ->
    get v "timestamp" = Ok timestamp ->
    ToNumber host timestamp = Ok t ->
    (now - t <? CACHE_DURATION)%float = false ->
    unanswering host now (Some (JSONText v)) (Some rate).

(** The failing primary responses as the specification lists them: a
    network error, any status outside 200-299, a body that does not
    parse, or status 502. *)
Definition failing_primary (r : reply) : Prop :=
  match r with
  | Rejected => True
  | Response status b =>
      ~ (200 <= status < 300)%Z
      \/ response_json b = Err SyntaxError
      \/ status = 502%Z
  end.

(** What makes lines 64-75 throw: a rejected fetch, status 502, a body
    that is not JSON, or a body that is [null], whose fields cannot be
    read. *)
Definition primary_throws (r : reply) : bool :=
  match r with
  | Rejected => true
  | Response status b =>
      (status =? 502)%Z
      || match b with
         | NotJson | Json VNull | Json VUndefined => true
         | Json _ => false
         end
  end.


(** ** Sample pages and worlds *)

(** An engine's answer for the samples below, which hold no string,
    array or object operand, so that it is never asked. *)
Definition unasked : value -> result float := fun _ => Ok nan.

(** The state when the script is loaded (lines 10-11), over whatever the
    cache key holds. *)
Definition loaded (cache : option item) : state :=
  {| previousTotalRubValue := None;
     isFetching := false;
     localStorage := cache;
     tbody := Untouched;
     last_update := NoCaption |}.

(** A page whose last successful total is 4000000. *)
Definition after_success : state :=
  {| previousTotalRubValue := Some 4000000%float;
     isFetching := false;
     localStorage := None;
     tbody := Untouched;
     last_update := NoCaption |}.

Definition quote (usd : value) : reply :=
  Response 200 (Json (VObj [("Valute", VObj [("USD", VObj [("Value", usd)])])])).

Definition stats (price volume : float) : reply :=
  Response 200 (Json (VObj [("market_price_usd", VNum price);
                            ("trade_volume_btc", VNum volume)])).

Definition stored_half_hour_ago : CachedRate :=
  {| rate := 91.5; timestamp := 1700000000000 |}.

(** Thirty minutes after [stored_half_hour_ago] was written; the network
    would quote 95. *)
Definition half_hour_later : world :=
  {| now := 1700001800000;
     net := fun _ => quote (VNum 95);
     drawn_at := 1700001800500 |}.

(** Sixty-one minutes after it was written; nothing can be reached. *)
Definition offline : world :=
  {| now := 1700003660000;
     net := fun _ => Rejected;
     drawn_at := 1700003660500 |}.

(** The rate endpoint quotes a negative value. *)
Definition negative_quote : world :=
  {| now := 1700000000000;
     net := fun _ => quote (VNum (-1));
     drawn_at := 1700000000500 |}.

(** The primary endpoint answers 500 with a JSON body; the fallback
    would have had the figures. *)
Definition server_error : world :=
  {| now := 1700000000000;
     net := fun u =>
       match u with
       | BITCOIN_USD_URL =>
           Response 500 (Json (VObj [("error", VStr "Internal Server Error")]))
       | FALLBACK_BITCOIN_USD_URL => stats 50000 2
       | USD_RUB_URL => Rejected
       end;
     drawn_at := 1700000000500 |}.

(** The primary endpoint answers 502; the fallback has the figures. *)
Definition bad_gateway : world :=
  {| now := 1700000000000;
     net := fun u =>
       match u with
       | BITCOIN_USD_URL => Response 502 NotJson
       | FALLBACK_BITCOIN_USD_URL => stats 50000 2
       | USD_RUB_URL => quote (VNum 90)
       end;
     drawn_at := 1700000000500 |}.

(** Both Bitcoin endpoints are down; the rate endpoint answers. *)
Definition bitcoin_down : world :=
  {| now := 1700000000000;
     net := fun u =>
       match u with
       | BITCOIN_USD_URL => Response 502 NotJson
       | FALLBACK_BITCOIN_USD_URL => Rejected
       | USD_RUB_URL => quote (VNum 90)
       end;
     drawn_at := 1700000000500 |}.

(** Sixty-one minutes later the primary endpoint is back with a price of
    50000 and a volume of 1; the rate endpoint cannot be reached. *)
Definition recovered : world :=
  {| now := 1700003660000;
     net := fun u =>
       match u with
       | BITCOIN_USD_URL =>
           Response 200 (Json (VObj [("last", VNum 50000); ("total_fees", VNum 1)]))
       | FALLBACK_BITCOIN_USD_URL => Rejected
       | USD_RUB_URL => Rejected
       end;
     drawn_at := 1700003660500 |}.

(** The page one turn after its first call, while [bad_gateway] has not
    answered yet. *)
Definition first_call_pending : page :=
  fst (react unasked {| memory := loaded None; awaiting := None |}
         (Invoke bad_gateway)).

(** ** Further vocabulary: what a call fetches and writes, successive calls *)

(** What makes lines 81-88 throw: a rejected fetch, or a body that is
    not JSON or is [null]. No status does. *)
Definition fallback_throws (r : reply) : bool :=
  match r with
  | Rejected => true
  | Response _ b =>
      match b with
      | NotJson | Json VNull | Json VUndefined => true
      | Json _ => false
      end
  end.

Definition is_write (e : event) : bool :=
  match e with SetItem _ => true | _ => false end.

Definition writes (t : list event) : list event := filter is_write t.

(** Calls of updateCryptoTable one after the other, each one settled
    before the next is made, as the timer of line 203 makes them when
    every cycle takes less than a minute. *)
Definition cycles (host : value -> result float) (ws : list world) (s : state)
  : state :=
  fold_left (fun s w => fst (updateCryptoTable host w s)) ws s.

(** Exactly one hour after [stored_half_hour_ago] was written; the
    network quotes 95. *)
Definition one_hour_later : world :=
  {| now := 1700003600000;
     net := fun _ => quote (VNum 95);
     drawn_at := 1700003600500 |}.

(** A cache entry that has a rate and no timestamp. *)
Definition rate_only : list (string * value) := [("rate", VNum 88)].

(** ** Two facts about binary64 comparison *)

Lemma positive_is_not_zero (x : float) :
  (0 <? x)%float = true -> is_zero x = false.
Proof.
  unfold is_zero. rewrite ltb_spec, eqb_spec.
  change (Prim2SF 0) with (S754_zero false).
  change (Prim2SF PrimFloat.zero) with (S754_zero false).
  destruct (Prim2SF x) as [s|s| |s m e]; cbn; try discriminate;
    destruct s; cbn; intros H; try discriminate H; reflexivity.
Qed.

Lemma finite_leb_refl (x : float) :
  is_finite x = true -> (x <=? x)%float = true.
Proof.
  unfold is_finite, is_nan. rewrite leb_spec, eqb_spec.
  unfold SFeqb, SFleb.
  destruct (SFcompare (Prim2SF x) (Prim2SF x)) as [[ | | ]|]; cbn;
    try discriminate; reflexivity.
Qed.

(** ** The snapshot *)

(** C1. For every numeric price point and rate, and every previous total
    (absent or not), the figures computed by updateCryptoTable are
    marketPriceLocal = priceUsd * rate,
    totalValueLocal = marketPriceLocal * volumeUnits,
    changeLocal = 0 when the previous total is absent and
    totalValueLocal - previousTotal otherwise, and changeSign is the
    comparison of changeLocal with 0; at priceUsd = 50000, rate = 90,
    volumeUnits = 1, previousTotal = 4000000 they are 4500000, 4500000,
    500000 and positive. *)
Theorem snapshot_matches_SnapshotComputer :
  (forall host priceUsd volumeUnits rate previousTotal,
    let total := SnapshotComputer.totalValueLocal priceUsd rate volumeUnits in
    let delta := SnapshotComputer.changeLocal total previousTotal in
    snapshot host (VNum priceUsd) (VNum volumeUnits) (VNum rate) previousTotal
    = Ok {| marketPriceRub := SnapshotComputer.marketPriceLocal priceUsd rate;
            totalRubValue := total;
            changeRubValue := delta;
            changeClass := SnapshotComputer.changeSign delta |})
  /\ (forall host,
    snapshot host (VNum 50000) (VNum 1) (VNum 90) (Some 4000000%float)
    = Ok {| marketPriceRub := 4500000;
            totalRubValue := 4500000;
            changeRubValue := 500000;
            changeClass := positive |}).
Proof.
  split.
  - intros host priceUsd volumeUnits rate [prev|]; cbn.
    + reflexivity.
    + reflexivity.
  - intros host. reflexivity.
Qed.

Lemma snapshot_change (host : value -> result float)
    (price volume usdRubRate : value) (previous : option float) (snap : Snapshot) :
  snapshot host price volume usdRubRate previous = Ok snap ->
  (changeRubValue snap, changeClass snap) = change (totalRubValue snap) previous.
Proof.
  unfold snapshot.
  destruct (js_mul host price usdRubRate) as [market|e]; cbn [bind]; [|discriminate].
  destruct (js_mul host (VNum market) volume) as [total|e]; cbn [bind]; [|discriminate].
  destruct (change total previous) as [delta cls] eqn:Hchange.
  intros H. injection H as <-. cbn. now rewrite Hchange.
Qed.

(** ** getUsdRubRate: cache hit, stale-on-error, failure *)

Section RateCache.

Variable host : value -> result float.

Lemma cache_check_hit (now : float) (v rate timestamp : value) (t : float) :
  get v "rate" = Ok rate ->
  get v "timestamp" = Ok timestamp ->
  ToNumber host timestamp = Ok t ->
  (now - t <? CACHE_DURATION)%float = true ->
  cache_check host now (Some (JSONText v)) = Ok (Some rate).
Proof.
  intros Hrate Hts Hnum Hfresh.
  unfold cache_check. cbn [JSON_parse bind].
  rewrite Hrate, Hts. cbn [bind].
  unfold js_sub. cbn [ToNumber bind]. rewrite Hnum. cbn [bind].
  now rewrite Hfresh.
Qed.

Lemma cache_check_unanswering (now : float) (c : option item) (entry : option value) :
  unanswering host now c entry -> cache_check host now c = Ok None.
Proof.
  intros [ | | v rate timestamp t Hrate Hts Hnum Hold]; try reflexivity.
  unfold cache_check. cbn [JSON_parse bind].
  rewrite Hrate, Hts. cbn [bind].
  unfold js_sub. cbn [ToNumber bind]. rewrite Hnum. cbn [bind].
  now rewrite Hold.
Qed.

(** Once line 23 has read the entry, the [catch] block reads it again
    without throwing. *)
Lemma rate_on_error_after_check (now : float) (c : option item) (hit : option value) :
  cache_check host now c = Ok hit ->
  exists rate, fst (rate_on_error c) = Ok rate.
Proof.
  destruct c as [[ | | v]|]; cbn.
  - intros _. now exists (VNum 90).
  - discriminate.
  - destruct (get v "rate") as [rate|e] eqn:Hrate; cbn.
    + intros _. now exists rate.
    + discriminate.
  - intros _. now exists (VNum 90).
Qed.

(** The promise of getUsdRubRate is rejected only by lines 23-24. *)
Lemma getUsdRubRate_rejects_early (w : world) (c : option item) (e : error) :
  returned (getUsdRubRate host w c) = Err e -> cache_check host (now w) c = Err e.
Proof.
  unfold getUsdRubRate.
  destruct (cache_check host (now w) c) as [[rate|]|e'] eqn:Hcheck; cbn.
  - discriminate.
  - destruct (fetch_rate w) as [[usdRate|e''] t]; cbn.
    + discriminate.
    + destruct (rate_on_error_after_check _ _ _ Hcheck) as [rate Hrate].
      destruct (rate_on_error c) as [answer t']. cbn in *. subst answer.
      discriminate.
  - congruence.
Qed.

End RateCache.

Lemma fetch_rate_never_writes (w : world) (text : item) :
  ~ In (SetItem text) (snd (fetch_rate w)).
Proof.
  unfold fetch_rate.
  destruct (net w USD_RUB_URL); cbn; intuition discriminate.
Qed.

Lemma rate_on_error_never_writes (c : option item) (text : item) :
  ~ In (SetItem text) (snd (rate_on_error c)).
Proof.
  destruct c as [[ | | v]|]; cbn; intuition discriminate.
Qed.

(** C2. For every stored CachedRate whose timestamp satisfies
    now - timestamp < 1 hour, getUsdRubRate returns the stored rate, makes
    no network fetch (its only effect is the log of line 25), and leaves
    the stored entry unchanged. *)
Theorem fresh_cache_answers (host : value -> result float) (w : world) (c : CachedRate) :
  (now w - timestamp c <? CACHE_DURATION)%float = true ->
  getUsdRubRate host w (Some (cache_entry c))
  = {| returned := Ok (VNum (rate c));
       stored := Some (cache_entry c);
       effects := [Log UsingCachedRate] |}
  /\ fetches (effects (getUsdRubRate host w (Some (cache_entry c)))) = [].
Proof.
  intros Hfresh.
  assert (Hhit : cache_check host (now w) (Some (cache_entry c))
                 = Ok (Some (VNum (rate c)))).
  { apply cache_check_hit with (timestamp := VNum (timestamp c)) (t := timestamp c);
      [reflexivity | reflexivity | reflexivity | exact Hfresh]. }
  unfold getUsdRubRate. rewrite Hhit. split; reflexivity.
Qed.

Lemma fresh_cache_answers_witness :
  (now half_hour_later - timestamp stored_half_hour_ago)%float = 1800000%float
  /\ returned (getUsdRubRate unasked half_hour_later
                 (Some (cache_entry stored_half_hour_ago))) = Ok (VNum 91.5)
  /\ fetches (effects (getUsdRubRate unasked half_hour_later
                 (Some (cache_entry stored_half_hour_ago)))) = [].
Proof.
  split; [reflexivity|].
  destruct (fresh_cache_answers unasked half_hour_later stored_half_hour_ago)
    as [Hcall Hnet]; [reflexivity|].
  split; [now rewrite Hcall | exact Hnet].
Defined.

(** C3. When the cache is absent or expired and fetching or parsing the
    rate fails, getUsdRubRate returns the cached rate if an entry exists,
    even an expired one, and exactly 90 if none exists; it does not throw
    and does not write to the cache. *)
Theorem stale_rate_or_default (host : value -> result float) (w : world)
    (c : option item) (entry : option value) (e : error) :
  unanswering host (now w) c entry ->
  fst (fetch_rate w) = Err e ->
  returned (getUsdRubRate host w c)
  = Ok (match entry with Some rate => rate | None => VNum 90 end)
  /\ stored (getUsdRubRate host w c) = c.
Proof.
  intros Hcache Hfail.
  pose proof (cache_check_unanswering host _ _ _ Hcache) as Hcheck.
  unfold getUsdRubRate. rewrite Hcheck.
  destruct (fetch_rate w) as [[usdRate|e'] t]; cbn in Hfail; [discriminate|].
  inversion Hcache as [ | | v rate timestamp t0 Hrate Hts Hnum Hold]; subst; cbn.
  - split; reflexivity.
  - split; reflexivity.
  - rewrite Hrate. split; reflexivity.
Qed.

Lemma stale_rate_or_default_witness :
  returned (getUsdRubRate unasked offline None) = Ok (VNum 90)
  /\ returned (getUsdRubRate unasked offline
                 (Some (cache_entry stored_half_hour_ago))) = Ok (VNum 91.5).
Proof.
  split.
  - apply (stale_rate_or_default unasked offline None None NetworkError).
    + constructor.
    + reflexivity.
  - apply (stale_rate_or_default unasked offline
             (Some (cache_entry stored_half_hour_ago)) (Some (VNum 91.5))
             NetworkError).
    + apply cache_expired with (timestamp := VNum 1700000000000) (t := 1700000000000%float);
        reflexivity.
    + reflexivity.
Defined.

(** C4. getUsdRubRate is meant never to fail, whatever the cache key
    holds and whatever the network does. Line 23 parses the cache
    outside the [try] block: when the key holds a text that is not JSON
    the promise is rejected with a SyntaxError, and when it holds the
    JSON text [null] with a TypeError, whatever the network answers. *)
Theorem garbled_cache_rejects (host : value -> result float) (w : world) :
  returned (getUsdRubRate host w (Some NotJSON)) = Err SyntaxError
  /\ returned (getUsdRubRate host w (Some (JSONText VNull))) = Err TypeError.
Proof.
  split; reflexivity.
Qed.

(** ** The CachedRate invariant *)

(** C9, as stated, fails: the value of the endpoint is stored as it
    comes, and a rate of -1 is written to the cache. *)
Lemma negative_rate_is_cached :
  let written := cache_entry {| rate := -1; timestamp := 1700000000000 |} in
  In (SetItem written) (effects (getUsdRubRate unasked negative_quote None))
  /\ ~ CachedRate_invariant (now negative_quote) written.
Proof.
  split.
  - cbn. right. right. left. reflexivity.
  - intros [c [Htext [Hpos _]]].
    unfold cache_entry in Htext. injection Htext as Hrate _.
    rewrite <- Hrate in Hpos. discriminate Hpos.
Qed.

(** C9, amended. Every write of the cache by getUsdRubRate stores the
    JSON text of the object whose rate is the endpoint's
    Valute.USD.Value, unchecked, and whose timestamp is the clock read
    at the start of the call; the write is then the content of the key.
    Whenever that value is a positive finite number the written text is
    a CachedRate that satisfies the invariant. *)
Theorem cache_write_stores_endpoint_value (host : value -> result float)
    (w : world) (c : option item) (text : item) :
  In (SetItem text) (effects (getUsdRubRate host w c)) ->
  exists usdRate : value,
    fst (fetch_rate w) = Ok usdRate
    /\ text = JSON_stringify (VObj [("rate", usdRate); ("timestamp", VNum (now w))])
    /\ stored (getUsdRubRate host w c) = Some text
    /\ (forall x : float,
          usdRate = VNum x ->
          (0 <? x)%float = true -> is_finite x = true ->
          (0 <? now w)%float = true -> is_finite (now w) = true ->
          text = cache_entry {| rate := x; timestamp := now w |}
          /\ CachedRate_invariant (now w) text).
Proof.
  unfold getUsdRubRate.
  destruct (cache_check host (now w) c) as [[hit|]|e]; cbn [effects].
  - intros [H|[]]; discriminate H.
  - destruct (fetch_rate w) as [[usdRate|e] t] eqn:Hfetch.
    + cbn [effects stored fst]. intros Hin.
      apply in_app_or in Hin. destruct Hin as [Hin|Hin].
      { exfalso. apply (fetch_rate_never_writes w text). now rewrite Hfetch. }
      destruct Hin as [Heq|[Heq|[]]]; [|discriminate Heq].
      injection Heq as Heq. exists usdRate.
      split; [reflexivity|]. split; [now symmetry|]. split; [now rewrite Heq|].
      intros x -> Hpos Hfin Hnow Hnowfin.
      assert (Htext : text = cache_entry {| rate := x; timestamp := now w |}).
      { rewrite <- Heq. unfold JSON_stringify, cache_entry. cbn.
        rewrite Hfin, Hnowfin.
        pose proof (positive_is_not_zero _ Hpos) as Hx.
        pose proof (positive_is_not_zero _ Hnow) as Hn.
        unfold is_zero in Hx, Hn. now rewrite Hx, Hn. }
      split; [exact Htext|].
      exists {| rate := x; timestamp := now w |}. cbn.
      repeat split; auto using finite_leb_refl.
    + destruct (rate_on_error c) as [answer t'] eqn:Herr. cbn [effects].
      intros Hin. exfalso.
      apply in_app_or in Hin. destruct Hin as [Hin|Hin].
      * apply (fetch_rate_never_writes w text). now rewrite Hfetch.
      * apply (rate_on_error_never_writes c text). now rewrite Herr.
  - intros [].
Qed.

Lemma cache_write_stores_endpoint_value_witness :
  let written := cache_entry {| rate := 95; timestamp := now half_hour_later |} in
  In (SetItem written) (effects (getUsdRubRate unasked half_hour_later None))
  /\ stored (getUsdRubRate unasked half_hour_later None) = Some written
  /\ CachedRate_invariant (now half_hour_later) written.
Proof.
  intros written.
  assert (Hin : In (SetItem written)
                  (effects (getUsdRubRate unasked half_hour_later None))).
  { cbn. right. right. left. reflexivity. }
  split; [exact Hin|].
  destruct (cache_write_stores_endpoint_value unasked half_hour_later None written Hin)
    as [usdRate [Hfetch [_ [Hstored Hinv]]]].
  split; [exact Hstored|].
  cbn in Hfetch. injection Hfetch as <-.
  exact (proj2 (Hinv 95%float eq_refl eq_refl eq_refl eq_refl eq_refl)).
Defined.

(** ** getBitcoinData: when the fallback is tried *)

(** C5, as stated, fails: only status 502 is tested on line 65, so a 500
    response with a JSON body is read as data and the fallback is not
    tried. *)
Lemma server_error_is_read_as_data :
  failing_primary (net server_error BITCOIN_USD_URL)
  /\ ~ In (Fetch FALLBACK_BITCOIN_USD_URL) (snd (getBitcoinData server_error))
  /\ fst (getBitcoinData server_error)
     = Ok {| priceUsd := VUndefined; volumeBtc := VUndefined |}.
Proof.
  split; [|split].
  - cbn. left. intros [_ H]. discriminate H.
  - cbn. intuition discriminate.
  - reflexivity.
Qed.

Lemma primary_throws_iff (w : world) :
  primary_throws (net w BITCOIN_USD_URL) = negb (succeeds (fst (primary w))).
Proof.
  unfold primary, primary_throws.
  destruct (net w BITCOIN_USD_URL) as [|status b]; [reflexivity|].
  destruct (status =? 502)%Z; [reflexivity|].
  destruct b as [|[ | | | | | | ]]; reflexivity.
Qed.

Lemma primary_never_calls_fallback (w : world) :
  ~ In (Fetch FALLBACK_BITCOIN_USD_URL) (snd (primary w)).
Proof.
  unfold primary.
  destruct (net w BITCOIN_USD_URL) as [|status b]; cbn; [intuition discriminate|].
  destruct (status =? 502)%Z; cbn; [intuition discriminate|].
  destruct (response_json b); cbn; intuition discriminate.
Qed.

Lemma secondary_calls_fallback (w : world) :
  In (Fetch FALLBACK_BITCOIN_USD_URL) (snd (secondary w)).
Proof.
  unfold secondary.
  destruct (net w FALLBACK_BITCOIN_USD_URL) as [|status b]; cbn; [now left|].
  destruct (response_json b); cbn; now left.
Qed.

Lemma secondary_never_reads_primary (w : world) :
  ~ In (ReadJson BITCOIN_USD_URL) (snd (secondary w)).
Proof.
  unfold secondary.
  destruct (net w FALLBACK_BITCOIN_USD_URL) as [|status b]; cbn;
    [intuition discriminate|].
  destruct (response_json b); cbn; intuition discriminate.
Qed.

Lemma secondary_shape_B (w : world) (status : Z) (fields : list (string * value)) :
  net w FALLBACK_BITCOIN_USD_URL = Response status (Json (VObj fields)) ->
  fst (secondary w)
  = Ok {| priceUsd := lookup "market_price_usd" fields;
          volumeBtc := lookup "trade_volume_btc" fields |}.
Proof.
  intros Hnet. unfold secondary. now rewrite Hnet.
Qed.

(** C5, amended. Whenever the primary attempt throws - the fetch is
    rejected, the status is 502, or the body is not JSON or is null -
    getBitcoinData fetches the fallback endpoint and answers with its
    market_price_usd and trade_volume_btc fields, or with the terminal
    error when the fallback throws too. Any other primary response,
    whatever its status, is the answer, and the fallback is not
    fetched. *)
Theorem fallback_tried_iff_primary_throws (w : world) :
  (primary_throws (net w BITCOIN_USD_URL) = true ->
     In (Fetch FALLBACK_BITCOIN_USD_URL) (snd (getBitcoinData w))
     /\ fst (getBitcoinData w)
        = match fst (secondary w) with
          | Ok point => Ok point
          | Err _ => Err BitcoinUnavailable
          end
     /\ forall status fields,
          net w FALLBACK_BITCOIN_USD_URL = Response status (Json (VObj fields)) ->
          fst (getBitcoinData w)
          = Ok {| priceUsd := lookup "market_price_usd" fields;
                  volumeBtc := lookup "trade_volume_btc" fields |})
  /\ (primary_throws (net w BITCOIN_USD_URL) = false ->
        ~ In (Fetch FALLBACK_BITCOIN_USD_URL) (snd (getBitcoinData w))
        /\ fst (getBitcoinData w) = fst (primary w)).
Proof.
  rewrite primary_throws_iff.
  pose proof (primary_never_calls_fallback w) as Hprimary.
  pose proof (secondary_calls_fallback w) as Hsecondary.
  pose proof (secondary_shape_B w) as Hshape.
  unfold getBitcoinData.
  destruct (primary w) as [[point|e] t1]; cbn [fst snd succeeds negb] in *.
  - split; [discriminate|]. intros _. split; [exact Hprimary | reflexivity].
  - split; [|discriminate]. intros _.
    destruct (secondary w) as [[point|e'] t2]; cbn [fst snd] in *.
    + split; [|split; [reflexivity|exact Hshape]].
      apply in_or_app. right. cbn. right. exact Hsecondary.
    + split; [|split; [reflexivity|]].
      * apply in_or_app. right. cbn. right. apply in_or_app. left. exact Hsecondary.
      * intros status fields Hnet. discriminate (Hshape _ _ Hnet).
Qed.

Lemma fallback_tried_iff_primary_throws_witness :
  (In (Fetch FALLBACK_BITCOIN_USD_URL) (snd (getBitcoinData bad_gateway))
   /\ fst (getBitcoinData bad_gateway)
      = Ok {| priceUsd := VNum 50000; volumeBtc := VNum 2 |})
  /\ ~ In (Fetch FALLBACK_BITCOIN_USD_URL) (snd (getBitcoinData server_error)).
Proof.
  split.
  - destruct (fallback_tried_iff_primary_throws bad_gateway) as [Hthrows _].
    destruct (Hthrows eq_refl) as [Hfetch [_ Hshape]].
    split; [exact Hfetch|].
    exact (Hshape 200%Z _ eq_refl).
  - destruct (fallback_tried_iff_primary_throws server_error) as [_ Hanswers].
    exact (proj1 (Hanswers eq_refl)).
Defined.

(** ** One cycle of updateCryptoTable *)

Section Cycle.

Variable host : value -> result float.

Lemma settle_rejected (w : world) (s : state) (e : error) :
  Promise_all (returned (getUsdRubRate host w (localStorage s)))
              (fst (getBitcoinData w)) = Err e ->
  fst (settle host w s)
  = {| previousTotalRubValue := previousTotalRubValue s;
       isFetching := false;
       localStorage := stored (getUsdRubRate host w (localStorage s));
       tbody := ErrorRow e;
       last_update := UpdateError (drawn_at w) |}.
Proof.
  unfold settle. destruct (getBitcoinData w) as [btcData t_btc]. cbn [fst].
  intros Hall. rewrite Hall. reflexivity.
Qed.

Lemma settle_fulfilled (w : world) (s : state)
    (usdRubRate : value) (point : PricePoint) (snap : Snapshot) :
  returned (getUsdRubRate host w (localStorage s)) = Ok usdRubRate ->
  fst (getBitcoinData w) = Ok point ->
  snapshot host (priceUsd point) (volumeBtc point) usdRubRate
    (previousTotalRubValue s) = Ok snap ->
  fst (settle host w s)
  = {| previousTotalRubValue := Some (totalRubValue snap);
       isFetching := false;
       localStorage := stored (getUsdRubRate host w (localStorage s));
       tbody := DataRow (formatRub (VNum (marketPriceRub snap)))
                        (formatBtc (volumeBtc point))
                        (formatRub (VNum (totalRubValue snap)))
                        (changeClass snap)
                        (0 <? changeRubValue snap)%float
                        (formatRub (VNum (changeRubValue snap)));
       last_update := LastUpdate (drawn_at w) |}.
Proof.
  unfold settle. destruct (getBitcoinData w) as [btcData t_btc]. cbn [fst].
  intros Hrate -> Hsnap. rewrite Hrate. cbn [Promise_all bind].
  rewrite Hsnap. reflexivity.
Qed.




(** A call on an idle page is the two turns it takes. *)
Lemma updateCryptoTable_two_turns (w : world) (s : state) :
  isFetching s = false ->
  run host {| memory := s; awaiting := None |} [Invoke w; Settle]
  = ({| memory := fst (updateCryptoTable host w s); awaiting := None |},
     snd (updateCryptoTable host w s)).
Proof.
  intros Hidle. unfold updateCryptoTable. cbn. rewrite Hidle. cbn.
  destruct (settle host w (enter s)) as [s' t]. cbn. now rewrite app_nil_r.
Qed.

End Cycle.

(** C6. If the primary endpoint answers with status 502, getBitcoinData
    throws before reading the primary body and fetches the fallback; if
    the fallback answers with market_price_usd 50000 and trade_volume_btc
    2 the result is the price point (50000, 2); if the fallback fails
    too, getBitcoinData throws the terminal error of line 91, which the
    calling cycle receives and shows as its error row. *)
Theorem bad_gateway_falls_back (host : value -> result float) (w : world) (b : body) :
  net w BITCOIN_USD_URL = Response 502 b ->
  (~ In (ReadJson BITCOIN_USD_URL) (snd (getBitcoinData w))
   /\ In (Fetch FALLBACK_BITCOIN_USD_URL) (snd (getBitcoinData w)))
  /\ (forall status fields,
        net w FALLBACK_BITCOIN_USD_URL = Response status (Json (VObj fields)) ->
        lookup "market_price_usd" fields = VNum 50000 ->
        lookup "trade_volume_btc" fields = VNum 2 ->
        fst (getBitcoinData w)
        = Ok {| priceUsd := VNum 50000; volumeBtc := VNum 2 |})
  /\ (forall e,
        fst (secondary w) = Err e ->
        fst (getBitcoinData w) = Err BitcoinUnavailable
        /\ forall s usdRubRate,
             isFetching s = false ->
             returned (getUsdRubRate host w (localStorage s)) = Ok usdRubRate ->
             tbody (fst (updateCryptoTable host w s)) = ErrorRow BitcoinUnavailable).
Proof.
  intros Hnet.
  assert (Hprimary : primary w = (Err BadGateway, [Fetch BITCOIN_USD_URL])).
  { unfold primary. now rewrite Hnet. }
  pose proof (secondary_calls_fallback w) as Hcalls.
  pose proof (secondary_never_reads_primary w) as Hreads.
  split; [|split].
  - unfold getBitcoinData. rewrite Hprimary.
    destruct (secondary w) as [[point|e] t2]; cbn in *.
    + split; [intuition discriminate | now right; right].
    + split.
      * intros [H|[H|H]]; try discriminate.
        apply in_app_or in H. destruct H as [H|[H|[]]]; [tauto | discriminate].
      * right. right. apply in_or_app. now left.
  - intros status fields Hfallback Hprice Hvolume.
    unfold getBitcoinData. rewrite Hprimary.
    rewrite (surjective_pairing (secondary w)).
    rewrite (secondary_shape_B w status fields Hfallback).
    now rewrite Hprice, Hvolume.
  - intros e Hsecondary.
    assert (Hthrown : fst (getBitcoinData w) = Err BitcoinUnavailable).
    { unfold getBitcoinData. rewrite Hprimary.
      destruct (secondary w) as [[point|e'] t2]; cbn in *; [discriminate|reflexivity]. }
    split; [exact Hthrown|].
    intros s usdRubRate Hidle Hrate.
    unfold updateCryptoTable. rewrite Hidle.
    rewrite (settle_rejected host w (enter s) BitcoinUnavailable); [reflexivity|].
    cbn [enter localStorage]. now rewrite Hrate, Hthrown.
Qed.

Lemma bad_gateway_falls_back_witness :
  fst (getBitcoinData bad_gateway)
  = Ok {| priceUsd := VNum 50000; volumeBtc := VNum 2 |}
  /\ fst (getBitcoinData bitcoin_down) = Err BitcoinUnavailable
  /\ tbody (fst (updateCryptoTable unasked bitcoin_down (loaded None)))
     = ErrorRow BitcoinUnavailable.
Proof.
  split; [|split].
  - destruct (bad_gateway_falls_back unasked bad_gateway NotJson eq_refl)
      as [_ [Hshape _]].
    exact (Hshape 200%Z _ eq_refl eq_refl eq_refl).
  - destruct (bad_gateway_falls_back unasked bitcoin_down NotJson eq_refl)
      as [_ [_ Hterminal]].
    exact (proj1 (Hterminal NetworkError eq_refl)).
  - destruct (bad_gateway_falls_back unasked bitcoin_down NotJson eq_refl)
      as [_ [_ Hterminal]].
    exact (proj2 (Hterminal NetworkError eq_refl) (loaded None) (VNum 90)
             eq_refl eq_refl).
Defined.

(** ** formatRub *)

(** C8. For every input that is not a number or is NaN, formatRub
    returns the string it returns for 0: NaN never reaches the
    formatter, and there is no input on which formatRub throws. *)
Theorem formatRub_of_non_number (v : value) :
  is_number v = false \/ (exists x, v = VNum x /\ is_nan x = true) ->
  formatRub v = formatRub (VNum 0)
  /\ formatRub v = toLocaleString 0 2 2
  /\ is_nan (shown (formatRub v)) = false.
Proof.
  intros [Hkind | [x [-> Hnan]]].
  - destruct v; try discriminate Hkind; repeat split; reflexivity.
  - unfold formatRub. rewrite Hnan. repeat split; reflexivity.
Qed.

Lemma formatRub_of_non_number_witness :
  formatRub (VNum nan) = formatRub (VNum 0)
  /\ formatRub (VStr "x") = formatRub (VNum 0).
Proof.
  split.
  - apply (formatRub_of_non_number (VNum nan)).
    right. exists nan. split; reflexivity.
  - apply (formatRub_of_non_number (VStr "x")). left. reflexivity.
Defined.

(** ** The single-flight guard *)

(** C7. Whenever the in-flight flag is set, a call of updateCryptoTable
    returns at once: the state, previousTotalRubValue included, is what
    it was, the only effect is the log of line 130, no fetch is issued,
    and the call leaves nothing behind: what the page does afterwards is
    what it would have done without it. *)
Theorem in_flight_call_is_dropped (host : value -> result float)
    (p : page) (w : world) :
  isFetching (memory p) = true ->
  updateCryptoTable host w (memory p) = (memory p, [Log CycleSkipped])
  /\ react host p (Invoke w) = (p, [Log CycleSkipped])
  /\ fetches (snd (react host p (Invoke w))) = []
  /\ forall rest,
       run host p (Invoke w :: rest)
       = (fst (run host p rest), Log CycleSkipped :: snd (run host p rest)).
Proof.
  intros Hflag.
  assert (Hreact : react host p (Invoke w) = (p, [Log CycleSkipped])).
  { cbn [react]. now rewrite Hflag. }
  repeat split.
  - unfold updateCryptoTable. now rewrite Hflag.
  - exact Hreact.
  - now rewrite Hreact.
  - intros rest. cbn [run]. rewrite Hreact.
    destruct (run host p rest) as [p2 t2]. reflexivity.
Qed.

(** While the first call waits on [bad_gateway], the timer fires with
    [half_hour_later]: that call is dropped, and the only cycle that
    settles is the first one, with a total of 50000 * 90 * 2. *)
Lemma in_flight_call_is_dropped_witness :
  isFetching (memory first_call_pending) = true
  /\ react unasked first_call_pending (Invoke half_hour_later)
     = (first_call_pending, [Log CycleSkipped])
  /\ previousTotalRubValue
       (memory (fst (run unasked first_call_pending
                       [Invoke half_hour_later; Settle; Settle])))
     = Some 9000000%float.
Proof.
  destruct (in_flight_call_is_dropped unasked first_call_pending half_hour_later
              eq_refl) as [_ [Hreact [_ Hrun]]].
  split; [reflexivity|]. split; [exact Hreact|].
  rewrite Hrun. reflexivity.
Defined.

(** ** A cycle that fails *)

(** C10. If getUsdRubRate or getBitcoinData rejects during a cycle,
    updateCryptoTable leaves previousTotalRubValue as it was before the
    cycle and clears the in-flight flag, so the next cycle that succeeds
    computes its change against the last successful total. *)
Theorem failed_cycle_keeps_previous_total (host : value -> result float)
    (w : world) (s : state) (e : error) :
  isFetching s = false ->
  returned (getUsdRubRate host w (localStorage s)) = Err e
    \/ fst (getBitcoinData w) = Err e ->
  let s' := fst (updateCryptoTable host w s) in
  previousTotalRubValue s' = previousTotalRubValue s
  /\ isFetching s' = false
  /\ forall w' usdRubRate point snap,
       returned (getUsdRubRate host w' (localStorage s')) = Ok usdRubRate ->
       fst (getBitcoinData w') = Ok point ->
       snapshot host (priceUsd point) (volumeBtc point) usdRubRate
         (previousTotalRubValue s') = Ok snap ->
       let s'' := fst (updateCryptoTable host w' s') in
       (changeRubValue snap, changeClass snap)
       = change (totalRubValue snap) (previousTotalRubValue s)
       /\ previousTotalRubValue s'' = Some (totalRubValue snap)
       /\ tbody s''
          = DataRow (formatRub (VNum (marketPriceRub snap)))
                    (formatBtc (volumeBtc point))
                    (formatRub (VNum (totalRubValue snap)))
                    (changeClass snap)
                    (0 <? changeRubValue snap)%float
                    (formatRub (VNum (changeRubValue snap))).
Proof.
  intros Hidle Hrejects s'.
  assert (Hall : exists e',
            Promise_all (returned (getUsdRubRate host w (localStorage s)))
                        (fst (getBitcoinData w)) = Err e').
  { destruct Hrejects as [Hrate|Hbtc].
    - exists e. now rewrite Hrate.
    - rewrite Hbtc.
      destruct (returned (getUsdRubRate host w (localStorage s))) as [r|e'];
        [now exists e | now exists e']. }
  destruct Hall as [e' Hall].
  assert (Hs' : s' = fst (settle host w (enter s))).
  { unfold s', updateCryptoTable. now rewrite Hidle. }
  rewrite (settle_rejected host w (enter s) e' Hall) in Hs'.
  assert (Hprev : previousTotalRubValue s' = previousTotalRubValue s)
    by now rewrite Hs'.
  assert (Hflag : isFetching s' = false) by now rewrite Hs'.
  split; [exact Hprev|]. split; [exact Hflag|].
  intros w' usdRubRate point snap Hrate Hbtc Hsnap s''.
  split.
  - rewrite <- Hprev. exact (snapshot_change host _ _ _ _ _ Hsnap).
  - unfold s'', updateCryptoTable. rewrite Hflag.
    rewrite (settle_fulfilled host w' (enter s') usdRubRate point snap);
      [split; reflexivity | exact Hrate | exact Hbtc | exact Hsnap].
Qed.

(** After a total of 4000000, a cycle in which both Bitcoin endpoints
    are down is followed by one with a price of 50000, a volume of 1 and
    the rate of 90 cached by the failed cycle: the change shown is
    +500000. *)
Lemma failed_cycle_keeps_previous_total_witness :
  let s' := fst (updateCryptoTable unasked bitcoin_down after_success) in
  let s'' := fst (updateCryptoTable unasked recovered s') in
  previousTotalRubValue s' = Some 4000000%float
  /\ isFetching s' = false
  /\ tbody s''
     = DataRow (toLocaleString 4500000 2 2) (toLocaleString 1 4 8)
               (toLocaleString 4500000 2 2) positive true
               (toLocaleString 500000 2 2).
Proof.
  intros s' s''.
  destruct (failed_cycle_keeps_previous_total unasked bitcoin_down after_success
              BitcoinUnavailable eq_refl (or_intror eq_refl))
    as [Hprev [Hflag Hnext]].
  split; [exact Hprev|]. split; [exact Hflag|].
  destruct (Hnext recovered (VNum 90)
              {| priceUsd := VNum 50000; volumeBtc := VNum 1 |}
              {| marketPriceRub := 4500000; totalRubValue := 4500000;
                 changeRubValue := 500000; changeClass := positive |}
              eq_refl eq_refl eq_refl) as [_ [_ Hrow]].
  exact Hrow.
Defined.

(** * Further properties of the script *)

(** ** NaN in binary64 arithmetic *)



Lemma sub_nan_r (x : float) : (x - nan)%float = nan.
Proof.
  rewrite <- (SF2Prim_Prim2SF (x - nan)). rewrite sub_spec.
  change (Prim2SF nan) with S754_nan.
  destruct (Prim2SF x) as [s|s| |s m e]; reflexivity.
Qed.

Lemma negative_is_not_positive (x : float) :
  (x <? 0)%float = true -> (0 <? x)%float = false.
Proof.
  rewrite !ltb_spec. change (Prim2SF 0) with (S754_zero false). unfold SFltb.
  destruct (Prim2SF x) as [s|s| |s m e]; cbn; try discriminate; try reflexivity;
    destruct s; cbn; try discriminate; reflexivity.
Qed.

(** ** getUsdRubRate, further *)

Lemma fetch_rate_trace (w : world) (usdRate : value) :
  fst (fetch_rate w) = Ok usdRate ->
  snd (fetch_rate w) = [Fetch USD_RUB_URL; ReadJson USD_RUB_URL].
Proof.
  unfold fetch_rate. destruct (net w USD_RUB_URL) as [|status b]; cbn.
  - discriminate.
  - reflexivity.
Qed.

Lemma fetch_rate_fetches (w : world) :
  fetches (snd (fetch_rate w)) = [Fetch USD_RUB_URL]
  /\ writes (snd (fetch_rate w)) = [].
Proof.
  unfold fetch_rate. destruct (net w USD_RUB_URL) as [|status b]; split; reflexivity.
Qed.

Lemma rate_on_error_fetches (c : option item) :
  fetches (snd (rate_on_error c)) = [] /\ writes (snd (rate_on_error c)) = [].
Proof.
  destruct c as [[ | | v]|]; split; reflexivity.
Qed.

Lemma rate_call_fetches (host : value -> result float) (w : world) (c : option item) :
  fetches (effects (getUsdRubRate host w c))
  = match cache_check host (now w) c with
    | Ok None => [Fetch USD_RUB_URL]
    | _ => []
    end.
Proof.
  unfold getUsdRubRate.
  destruct (cache_check host (now w) c) as [[hit|]|e]; try reflexivity.
  pose proof (fetch_rate_fetches w) as [Hf _].
  pose proof (rate_on_error_fetches c) as [He _].
  destruct (fetch_rate w) as [[usdRate|e] t]; cbn [snd] in Hf.
  - cbn [effects]. unfold fetches in *. rewrite filter_app, Hf. reflexivity.
  - destruct (rate_on_error c) as [answer t']. cbn [effects snd] in *.
    unfold fetches in *. now rewrite filter_app, Hf, He.
Qed.

(** X1. The promise of getUsdRubRate is rejected exactly when reading
    the cache on lines 23-24 throws, and with that error: once the cache
    has been read, the call returns a value whatever the network does. *)
Theorem rate_call_rejects_iff_cache_unreadable (host : value -> result float)
    (w : world) (c : option item) (e : error) :
  returned (getUsdRubRate host w c) = Err e
  <-> cache_check host (now w) c = Err e.
Proof.
  split.
  - apply getUsdRubRate_rejects_early.
  - intros Hcheck. unfold getUsdRubRate. now rewrite Hcheck.
Qed.

(** X2. When the cache does not answer (missing, empty, or one hour old
    or older: the test of line 24 is strict) and the endpoint gives a
    value, getUsdRubRate fetches once, returns that value and overwrites
    the cache key with it and the time of the call. *)
Theorem unanswering_cache_is_refreshed (host : value -> result float) (w : world)
    (c : option item) (entry : option value) (usdRate : value) :
  unanswering host (now w) c entry ->
  fst (fetch_rate w) = Ok usdRate ->
  let text := JSON_stringify (VObj [("rate", usdRate); ("timestamp", VNum (now w))]) in
  getUsdRubRate host w c
  = {| returned := Ok usdRate;
       stored := Some text;
       effects := [Fetch USD_RUB_URL; ReadJson USD_RUB_URL; SetItem text;
                   Log RateUpdated] |}.
Proof.
  intros Hcache Hfetch text.
  pose proof (cache_check_unanswering host _ _ _ Hcache) as Hcheck.
  pose proof (fetch_rate_trace w usdRate Hfetch) as Htrace.
  unfold getUsdRubRate. rewrite Hcheck.
  destruct (fetch_rate w) as [[u|e] t]; cbn [fst snd] in *; [|discriminate].
  injection Hfetch as ->. subst t. reflexivity.
Qed.

Lemma unanswering_cache_is_refreshed_witness :
  (now one_hour_later - timestamp stored_half_hour_ago)%float = CACHE_DURATION
  /\ returned (getUsdRubRate unasked one_hour_later
                 (Some (cache_entry stored_half_hour_ago))) = Ok (VNum 95)
  /\ stored (getUsdRubRate unasked one_hour_later
               (Some (cache_entry stored_half_hour_ago)))
     = Some (cache_entry {| rate := 95; timestamp := 1700003600000 |}).
Proof.
  split; [reflexivity|].
  assert (Hold : unanswering unasked (now one_hour_later)
                   (Some (cache_entry stored_half_hour_ago)) (Some (VNum 91.5))).
  { apply cache_expired with (timestamp := VNum 1700000000000) (t := 1700000000000%float);
      reflexivity. }
  rewrite (unanswering_cache_is_refreshed unasked one_hour_later _ _ (VNum 95)
             Hold eq_refl).
  split; reflexivity.
Defined.





(** X4. A cache entry that has no timestamp is never fresh: whatever
    the clock reads, the age computed on line 24 is NaN, the test fails,
    and every call goes to the network; the entry's rate still serves as
    the stale fallback. *)
Theorem entry_without_timestamp_never_answers (host : value -> result float)
    (w : world) (fields : list (string * value)) :
  lookup "timestamp" fields = VUndefined ->
  unanswering host (now w) (Some (JSONText (VObj fields)))
    (Some (lookup "rate" fields))
  /\ fetches (effects (getUsdRubRate host w (Some (JSONText (VObj fields)))))
     = [Fetch USD_RUB_URL].
Proof.
  intros Hmissing.
  assert (Hcache : unanswering host (now w) (Some (JSONText (VObj fields)))
                     (Some (lookup "rate" fields))).
  { apply cache_expired with (timestamp := VUndefined) (t := nan).
    - reflexivity.
    - cbn [get]. now rewrite Hmissing.
    - reflexivity.
    - now rewrite sub_nan_r. }
  split; [exact Hcache|].
  rewrite rate_call_fetches.
  now rewrite (cache_check_unanswering host _ _ _ Hcache).
Qed.

(** Written a millisecond before the call, and still not used. *)
Lemma entry_without_timestamp_never_answers_witness :
  fetches (effects (getUsdRubRate unasked half_hour_later
                      (Some (JSONText (VObj rate_only)))))
  = [Fetch USD_RUB_URL]
  /\ returned (getUsdRubRate unasked offline (Some (JSONText (VObj rate_only))))
     = Ok (VNum 88).
Proof.
  split.
  - exact (proj2 (entry_without_timestamp_never_answers unasked half_hour_later
                    rate_only eq_refl)).
  - reflexivity.
Defined.

(** X5. A call of getUsdRubRate fetches the rate endpoint once when the
    cache does not answer and nothing otherwise; it writes the cache key
    once when that fetch gives a value and never otherwise, and a call
    that does not write leaves the key as it found it. *)
Theorem rate_call_fetches_and_writes (host : value -> result float)
    (w : world) (c : option item) :
  let call := getUsdRubRate host w c in
  fetches (effects call)
  = match cache_check host (now w) c with
    | Ok None => [Fetch USD_RUB_URL]
    | _ => []
    end
  /\ writes (effects call)
     = match cache_check host (now w) c, fst (fetch_rate w) with
       | Ok None, Ok usdRate =>
           [SetItem (JSON_stringify
                       (VObj [("rate", usdRate); ("timestamp", VNum (now w))]))]
       | _, _ => []
       end
  /\ (writes (effects call) = [] -> stored call = c).
Proof.
  intros call. split; [apply rate_call_fetches|].
  unfold call, getUsdRubRate.
  destruct (cache_check host (now w) c) as [[hit|]|e]; try (split; reflexivity).
  pose proof (fetch_rate_fetches w) as [_ Hw].
  pose proof (rate_on_error_fetches c) as [_ He].
  destruct (fetch_rate w) as [[usdRate|e] t]; cbn [fst snd] in *.
  - cbn [effects stored]. unfold writes in *. rewrite filter_app, Hw. cbn.
    split; [reflexivity | discriminate].
  - destruct (rate_on_error c) as [answer t']. cbn [effects stored snd] in *.
    unfold writes in *. rewrite filter_app, Hw, He. split; reflexivity.
Qed.

(** ** getBitcoinData, further *)

Lemma fallback_throws_iff (w : world) :
  fallback_throws (net w FALLBACK_BITCOIN_USD_URL)
  = negb (succeeds (fst (secondary w))).
Proof.
  unfold secondary, fallback_throws.
  destruct (net w FALLBACK_BITCOIN_USD_URL) as [|status b]; [reflexivity|].
  destruct b as [|[ | | | | | | ]]; reflexivity.
Qed.

Lemma primary_fetches (w : world) :
  fetches (snd (primary w)) = [Fetch BITCOIN_USD_URL]
  /\ writes (snd (primary w)) = [].
Proof.
  unfold primary.
  destruct (net w BITCOIN_USD_URL) as [|status b]; [split; reflexivity|].
  destruct (status =? 502)%Z; [split; reflexivity|].
  destruct (response_json b); split; reflexivity.
Qed.

Lemma secondary_fetches (w : world) :
  fetches (snd (secondary w)) = [Fetch FALLBACK_BITCOIN_USD_URL]
  /\ writes (snd (secondary w)) = [].
Proof.
  unfold secondary.
  destruct (net w FALLBACK_BITCOIN_USD_URL) as [|status b]; [split; reflexivity|].
  destruct (response_json b); split; reflexivity.
Qed.

Lemma bitcoin_fetches (w : world) :
  fetches (snd (getBitcoinData w))
  = Fetch BITCOIN_USD_URL
    :: (if primary_throws (net w BITCOIN_USD_URL)
        then [Fetch FALLBACK_BITCOIN_USD_URL] else [])
  /\ writes (snd (getBitcoinData w)) = [].
Proof.
  rewrite primary_throws_iff.
  pose proof (primary_fetches w) as [Hp Hpw].
  pose proof (secondary_fetches w) as [Hs Hsw].
  unfold getBitcoinData.
  destruct (primary w) as [[point|e] t1]; cbn [fst snd succeeds negb] in *.
  - now rewrite Hp, Hpw.
  - destruct (secondary w) as [[point|e'] t2]; cbn [fst snd] in *;
      unfold fetches, writes in *;
      rewrite !filter_app, ?Hp, ?Hs, ?Hpw, ?Hsw; split; reflexivity.
Qed.

(** X6. getBitcoinData fails exactly when both attempts throw: the
    primary one (rejected fetch, status 502, body not JSON or null) and
    the fallback one (rejected fetch, body not JSON or null, whatever
    its status). The error is then always the one of line 91: what the
    two attempts threw is logged and lost. *)
Theorem bitcoin_fails_iff_both_throw (w : world) (e : error) :
  fst (getBitcoinData w) = Err e
  <-> e = BitcoinUnavailable
      /\ primary_throws (net w BITCOIN_USD_URL) = true
      /\ fallback_throws (net w FALLBACK_BITCOIN_USD_URL) = true.
Proof.
  rewrite primary_throws_iff, fallback_throws_iff.
  unfold getBitcoinData.
  destruct (primary w) as [[point|e1] t1]; cbn [fst succeeds negb].
  - split; [discriminate | intros [_ [H _]]; discriminate H].
  - destruct (secondary w) as [[point|e2] t2]; cbn [fst succeeds negb].
    + split; [discriminate | intros [_ [_ H]]; discriminate H].
    + split.
      * intros H. injection H as <-. repeat split.
      * intros [-> _]. reflexivity.
Qed.

(** X7. getBitcoinData fetches the primary endpoint first and once, the
    fallback endpoint once after it exactly when the primary attempt
    throws, and nothing else; it never writes to the cache. *)
Theorem bitcoin_fetch_order (w : world) :
  fetches (snd (getBitcoinData w))
  = Fetch BITCOIN_USD_URL
    :: (if primary_throws (net w BITCOIN_USD_URL)
        then [Fetch FALLBACK_BITCOIN_USD_URL] else [])
  /\ hd_error (snd (getBitcoinData w)) = Some (Fetch BITCOIN_USD_URL)
  /\ writes (snd (getBitcoinData w)) = [].
Proof.
  pose proof (bitcoin_fetches w) as [Hf Hw].
  split; [exact Hf|]. split; [|exact Hw].
  unfold getBitcoinData, primary.
  destruct (net w BITCOIN_USD_URL) as [|status b].
  - destruct (secondary w) as [[point|e] t]; reflexivity.
  - destruct (status =? 502)%Z.
    + destruct (secondary w) as [[point|e] t]; reflexivity.
    + destruct (response_json b) as [data|e].
      * destruct data; cbn; try reflexivity;
          destruct (secondary w) as [[point|e] t]; reflexivity.
      * destruct (secondary w) as [[point|e'] t]; reflexivity.
Qed.

(** ** formatRub and formatBtc, further *)


(** ** updateCryptoTable, further *)

Section Cycles.

Variable host : value -> result float.


Lemma settle_fetches (w : world) (s : state) :
  fetches (snd (settle host w s))
  = fetches (effects (getUsdRubRate host w (localStorage s)))
    ++ fetches (snd (getBitcoinData w)).
Proof.
  unfold settle. destruct (getBitcoinData w) as [btcData t_btc].
  match goal with
  | |- context [match ?c with _ => _ end] => destruct c as [[snap volume]|e]
  end; cbn [snd]; unfold fetches; rewrite ?filter_app; cbn [filter is_fetch];
    now rewrite ?app_nil_r.
Qed.

Lemma garbled_cycle (w : world) (s : state) :
  isFetching s = false ->
  localStorage s = Some NotJSON ->
  fst (updateCryptoTable host w s)
  = {| previousTotalRubValue := previousTotalRubValue s;
       isFetching := false;
       localStorage := Some NotJSON;
       tbody := ErrorRow SyntaxError;
       last_update := UpdateError (drawn_at w) |}.
Proof.
  intros Hidle Hcache. unfold updateCryptoTable. rewrite Hidle.
  rewrite (settle_rejected host w (enter s) SyntaxError);
    cbn [enter localStorage previousTotalRubValue]; rewrite Hcache; reflexivity.
Qed.

End Cycles.



(** X10. A cycle that runs makes between one and three fetches: the
    rate endpoint when the cache does not answer, the primary Bitcoin
    endpoint always (also when the cache answers, and also when reading
    the cache throws), and the fallback endpoint when the primary
    attempt throws. *)
Theorem cycle_fetches (host : value -> result float) (w : world) (s : state) :
  isFetching s = false ->
  let t := snd (updateCryptoTable host w s) in
  fetches t
  = match cache_check host (now w) (localStorage s) with
    | Ok None => [Fetch USD_RUB_URL]
    | _ => []
    end
    ++ Fetch BITCOIN_USD_URL
       :: (if primary_throws (net w BITCOIN_USD_URL)
           then [Fetch FALLBACK_BITCOIN_USD_URL] else [])
  /\ 1 <= List.length (fetches t) <= 3.
Proof.
  intros Hidle t.
  assert (Ht : fetches t
    = match cache_check host (now w) (localStorage s) with
      | Ok None => [Fetch USD_RUB_URL]
      | _ => []
      end
      ++ Fetch BITCOIN_USD_URL
         :: (if primary_throws (net w BITCOIN_USD_URL)
             then [Fetch FALLBACK_BITCOIN_USD_URL] else [])).
  { unfold t, updateCryptoTable. rewrite Hidle.
    rewrite settle_fetches, rate_call_fetches.
    now rewrite (proj1 (bitcoin_fetches w)). }
  split; [exact Ht|]. rewrite Ht.
  destruct (cache_check host (now w) (localStorage s)) as [[hit|]|e];
    destruct (primary_throws (net w BITCOIN_USD_URL)); cbn; lia.
Qed.

Lemma cycle_fetches_witness :
  fetches (snd (updateCryptoTable unasked bad_gateway (loaded None)))
  = [Fetch USD_RUB_URL; Fetch BITCOIN_USD_URL; Fetch FALLBACK_BITCOIN_USD_URL]
  /\ fetches (snd (updateCryptoTable unasked recovered (loaded (Some NotJSON))))
     = [Fetch BITCOIN_USD_URL].
Proof.
  split.
  - exact (proj1 (cycle_fetches unasked bad_gateway (loaded None) eq_refl)).
  - exact (proj1 (cycle_fetches unasked recovered (loaded (Some NotJSON)) eq_refl)).
Defined.

(** X11. In every snapshot the class of the change cell agrees with the
    sign of the change: it is positive exactly when the change is above
    0, which is also exactly when the "+" prefix of line 172 is written,
    negative exactly when the change is below 0, and zero otherwise, NaN
    and the first cycle included. *)
Theorem class_follows_sign (host : value -> result float)
    (price volume usdRubRate : value) (previous : option float) (snap : Snapshot) :
  snapshot host price volume usdRubRate previous = Ok snap ->
  ((0 <? changeRubValue snap)%float = true <-> changeClass snap = positive)
  /\ ((changeRubValue snap <? 0)%float = true <-> changeClass snap = negative)
  /\ (previous = None -> changeRubValue snap = 0%float /\ changeClass snap = zero).
Proof.
  intros Hsnap. pose proof (snapshot_change host _ _ _ _ _ Hsnap) as Hchange.
  destruct previous as [prev|]; cbn [change] in Hchange.
  - injection Hchange as Hdelta Hclass. rewrite <- Hdelta in Hclass.
    destruct (0 <? changeRubValue snap)%float eqn:Hpos.
    + rewrite Hclass. repeat split; try discriminate.
      intros Hneg. rewrite (negative_is_not_positive _ Hneg) in Hpos. discriminate.
    + destruct (changeRubValue snap <? 0)%float eqn:Hneg; rewrite Hclass;
        repeat split; try discriminate.
  - injection Hchange as Hdelta Hclass. rewrite Hdelta, Hclass.
    repeat split; try discriminate.
Qed.

Lemma class_follows_sign_witness :
  let snap := {| marketPriceRub := 4500000; totalRubValue := 4500000;
                 changeRubValue := -4500000; changeClass := negative |} in
  snapshot unasked (VNum 50000) (VNum 1) (VNum 90) (Some 9000000%float) = Ok snap
  /\ ((changeRubValue snap <? 0)%float = true <-> changeClass snap = negative)
  /\ ((0 <? changeRubValue snap)%float = true <-> changeClass snap = positive).
Proof.
  intros snap.
  assert (Hsnap : snapshot unasked (VNum 50000) (VNum 1) (VNum 90)
                    (Some 9000000%float) = Ok snap) by reflexivity.
  destruct (class_follows_sign unasked _ _ _ _ snap Hsnap) as [Hpos [Hneg _]].
  split; [exact Hsnap|]. split; [exact Hneg | exact Hpos].
Defined.

(** X12. The change shown by a successful cycle is its total minus the
    total of the last successful cycle before it, which that cycle left
    in previousTotalRubValue. *)
Theorem change_is_since_last_success (host : value -> result float)
    (w1 w2 : world) (s : state)
    (rate1 rate2 : value) (point1 point2 : PricePoint) (snap1 snap2 : Snapshot) :
  isFetching s = false ->
  returned (getUsdRubRate host w1 (localStorage s)) = Ok rate1 ->
  fst (getBitcoinData w1) = Ok point1 ->
  snapshot host (priceUsd point1) (volumeBtc point1) rate1
    (previousTotalRubValue s) = Ok snap1 ->
  let s1 := fst (updateCryptoTable host w1 s) in
  returned (getUsdRubRate host w2 (localStorage s1)) = Ok rate2 ->
  fst (getBitcoinData w2) = Ok point2 ->
  snapshot host (priceUsd point2) (volumeBtc point2) rate2
    (Some (totalRubValue snap1)) = Ok snap2 ->
  let s2 := fst (updateCryptoTable host w2 s1) in
  changeRubValue snap2 = (totalRubValue snap2 - totalRubValue snap1)%float
  /\ previousTotalRubValue s2 = Some (totalRubValue snap2)
  /\ tbody s2
     = DataRow (formatRub (VNum (marketPriceRub snap2)))
               (formatBtc (volumeBtc point2))
               (formatRub (VNum (totalRubValue snap2)))
               (changeClass snap2)
               (0 <? changeRubValue snap2)%float
               (formatRub (VNum (changeRubValue snap2))).
Proof.
  intros Hidle Hrate1 Hbtc1 Hsnap1 s1.
  assert (Hs1 : s1
    = {| previousTotalRubValue := Some (totalRubValue snap1);
         isFetching := false;
         localStorage := stored (getUsdRubRate host w1 (localStorage s));
         tbody := DataRow (formatRub (VNum (marketPriceRub snap1)))
                          (formatBtc (volumeBtc point1))
                          (formatRub (VNum (totalRubValue snap1)))
                          (changeClass snap1)
                          (0 <? changeRubValue snap1)%float
                          (formatRub (VNum (changeRubValue snap1)));
         last_update := LastUpdate (drawn_at w1) |}).
  { unfold s1, updateCryptoTable. rewrite Hidle.
    exact (settle_fulfilled host w1 (enter s) rate1 point1 snap1 Hrate1 Hbtc1 Hsnap1). }
  intros Hrate2 Hbtc2 Hsnap2 s2.
  split.
  - pose proof (snapshot_change host _ _ _ _ _ Hsnap2) as Hchange.
    cbn [change] in Hchange. now injection Hchange.
  - unfold s2, updateCryptoTable.
    replace (isFetching s1) with false by now rewrite Hs1.
    rewrite (settle_fulfilled host w2 (enter s1) rate2 point2 snap2);
      [split; reflexivity | exact Hrate2 | exact Hbtc2 | ].
    cbn [enter previousTotalRubValue]. now rewrite Hs1.
Qed.

(** A total of 9000000, then one of 4500000: the change is -4500000. *)
Lemma change_is_since_last_success_witness :
  let s1 := fst (updateCryptoTable unasked bad_gateway (loaded None)) in
  let s2 := fst (updateCryptoTable unasked recovered s1) in
  previousTotalRubValue s1 = Some 9000000%float
  /\ tbody s2
     = DataRow (toLocaleString 4500000 2 2) (toLocaleString 1 4 8)
               (toLocaleString 4500000 2 2) negative false
               (toLocaleString (-4500000) 2 2).
Proof.
  intros s1 s2. split; [reflexivity|].
  exact (proj2 (proj2
    (change_is_since_last_success unasked bad_gateway recovered (loaded None)
       (VNum 90) (VNum 90)
       {| priceUsd := VNum 50000; volumeBtc := VNum 2 |}
       {| priceUsd := VNum 50000; volumeBtc := VNum 1 |}
       {| marketPriceRub := 4500000; totalRubValue := 9000000;
          changeRubValue := 0; changeClass := zero |}
       {| marketPriceRub := 4500000; totalRubValue := 4500000;
          changeRubValue := -4500000; changeClass := negative |}
       eq_refl eq_refl eq_refl eq_refl eq_refl eq_refl eq_refl))).
Defined.



(** X14. Once previousTotalRubValue holds NaN, the next successful cycle
    cannot show a change: whatever its total, the change is NaN, which
    is drawn as zero with class zero and no "+". The cycle replaces the
    NaN by its own total, so the one after it shows a change again. *)
Theorem NaN_total_hides_next_change (host : value -> result float)
    (w : world) (s : state) (usdRubRate : value) (point : PricePoint)
    (snap : Snapshot) :
  isFetching s = false ->
  previousTotalRubValue s = Some nan ->
  returned (getUsdRubRate host w (localStorage s)) = Ok usdRubRate ->
  fst (getBitcoinData w) = Ok point ->
  snapshot host (priceUsd point) (volumeBtc point) usdRubRate (Some nan) = Ok snap ->
  let s' := fst (updateCryptoTable host w s) in
  tbody s'
  = DataRow (formatRub (VNum (marketPriceRub snap))) (formatBtc (volumeBtc point))
            (formatRub (VNum (totalRubValue snap))) zero false
            (toLocaleString 0 2 2)
  /\ previousTotalRubValue s' = Some (totalRubValue snap).
Proof.
  intros Hidle Hprev Hrate Hbtc Hsnap s'.
  pose proof (snapshot_change host _ _ _ _ _ Hsnap) as Hchange.
  cbn [change] in Hchange. rewrite sub_nan_r in Hchange.
  injection Hchange as Hdelta Hclass. cbn in Hclass.
  unfold s', updateCryptoTable. rewrite Hidle.
  rewrite (settle_fulfilled host w (enter s) usdRubRate point snap Hrate Hbtc).
  - cbn. rewrite Hdelta, Hclass. split; reflexivity.
  - cbn [enter previousTotalRubValue]. now rewrite Hprev.
Qed.

Lemma NaN_total_hides_next_change_witness :
  let s1 := fst (updateCryptoTable unasked server_error (loaded None)) in
  let s2 := fst (updateCryptoTable unasked bad_gateway s1) in
  previousTotalRubValue s1 = Some nan
  /\ tbody s2
     = DataRow (toLocaleString 4500000 2 2) (toLocaleString 2 4 8)
               (toLocaleString 9000000 2 2) zero false (toLocaleString 0 2 2)
  /\ previousTotalRubValue s2 = Some 9000000%float.
Proof.
  intros s1 s2. split; [reflexivity|].
  exact (NaN_total_hides_next_change unasked bad_gateway s1 (VNum 90)
           {| priceUsd := VNum 50000; volumeBtc := VNum 2 |}
           {| marketPriceRub := 4500000; totalRubValue := 9000000;
              changeRubValue := nan; changeClass := zero |}
           eq_refl eq_refl eq_refl eq_refl eq_refl).
Defined.

(** X15. A cache key that holds text that is not JSON is never repaired
    by the script: every cycle ends in the error row with the
    SyntaxError of line 23, although its Bitcoin fetch is made, and
    leaves the key and previousTotalRubValue as they were, so the table
    shows no figures until the key is removed by other means. *)
Theorem garbled_cache_is_never_repaired (host : value -> result float)
    (ws : list world) (s : state) :
  isFetching s = false ->
  localStorage s = Some NotJSON ->
  let s' := cycles host ws s in
  isFetching s' = false
  /\ localStorage s' = Some NotJSON
  /\ previousTotalRubValue s' = previousTotalRubValue s
  /\ (ws <> [] -> tbody s' = ErrorRow SyntaxError).
Proof.
  revert s. induction ws as [|w rest IH]; intros s Hidle Hcache; cbn.
  - repeat split; try assumption. intros H. now contradiction H.
  - fold (cycles host rest (fst (updateCryptoTable host w s))).
    pose proof (garbled_cycle host w s Hidle Hcache) as Hstep.
    set (s1 := fst (updateCryptoTable host w s)) in *.
    assert (Hidle1 : isFetching s1 = false) by now rewrite Hstep.
    assert (Hcache1 : localStorage s1 = Some NotJSON) by now rewrite Hstep.
    destruct (IH s1 Hidle1 Hcache1) as [Hflag [Hkey [Hprev Hrow]]].
    split; [exact Hflag|]. split; [exact Hkey|]. split.
    + rewrite Hprev. now rewrite Hstep.
    + intros _. destruct rest as [|w' rest'].
      * cbn. now rewrite Hstep.
      * apply Hrow. discriminate.
Qed.

Lemma garbled_cache_is_never_repaired_witness :
  let s' := cycles unasked [bad_gateway; half_hour_later; recovered]
              (loaded (Some NotJSON)) in
  tbody s' = ErrorRow SyntaxError
  /\ localStorage s' = Some NotJSON
  /\ previousTotalRubValue s' = None.
Proof.
  destruct (garbled_cache_is_never_repaired unasked
              [bad_gateway; half_hour_later; recovered] (loaded (Some NotJSON))
              eq_refl eq_refl) as [_ [Hkey [Hprev Hrow]]].
  split; [apply Hrow; discriminate|]. split; [exact Hkey | exact Hprev].
Defined.

(** ** The page over many turns *)

